(** * userport: the upload button of [static/js/upload_url.js]

    A shallow embedding of the [UploadURL] class: its constructor, which
    looks up two elements of the page and registers a click listener, and
    its click handler [handleUploadButtonBlick], which posts a JSON body
    with [fetch].

    The page is a record [world]: the document (elements in document
    order, a node is its index), [window.location], the heap of [UploadURL]
    objects, the promises returned by [fetch] and the log of the requests
    [fetch] was called with.  JavaScript code is a function in the monad
    [JS], which threads the world and stops at the first exception. *)

From Stdlib Require Import String Ascii List Lia.
From stdpp Require Import base option list strings relations.
Import ListNotations.

Local Open Scope string_scope.
Local Open Scope list_scope.

(** ** Values *)

(** The exception of the source: [TypeError prop] is the error of reading
    or calling the property [prop] of [null] or [undefined]. *)
Inductive exn : Type :=
| TypeError (prop : string).

(** An event as a listener receives it. *)
Record event : Type := Event {
  ev_type : string;
  ev_target : nat;
  ev_clientX : nat;
  ev_clientY : nat
}.

(** How a [fetch] promise ends: with a response (of some HTTP status) or
    with a network failure. *)
Inductive outcome : Type :=
| Fulfilled (status : nat)
| Rejected.

(** The JavaScript values the program handles: a node is an index in the
    document, an object a location in the heap of [UploadURL] objects, a
    promise an index in the promise table. *)
Inductive jsval : Type :=
| VUndefined
| VNull
| VStr (s : string)
| VNode (n : nat)
| VObj (l : nat)
| VPromise (p : nat)
| VEvent (e : event)
| VOutcome (o : outcome).

(** The functions of the program that are passed around as values:
    [this.handleUploadButtonBlick.bind(this)]. *)
Inductive callback : Type :=
| handleUploadButtonBlick_bound (this : nat).

#[global] Instance exn_eq_dec : EqDecision exn.
Proof. solve_decision. Defined.
#[global] Instance event_eq_dec : EqDecision event.
Proof. solve_decision. Defined.
#[global] Instance outcome_eq_dec : EqDecision outcome.
Proof. solve_decision. Defined.
#[global] Instance jsval_eq_dec : EqDecision jsval.
Proof. solve_decision. Defined.
#[global] Instance callback_eq_dec : EqDecision callback.
Proof. solve_decision. Defined.

(** ** The page *)

Record element : Type := Element {
  el_id : string;
  el_value : jsval;
  el_listeners : list (string * callback)
}.

(** An [UploadURL] object; a field that was never assigned is
    [VUndefined]. *)
Record UploadURL : Type := Build_UploadURL {
  uploadButton : jsval;
  csrfToken : jsval
}.

Record location : Type := Location {
  loc_protocol : string;
  loc_host : string
}.

(** The second argument of [fetch] together with its first. *)
Record request : Type := Request {
  req_url : string;
  req_method : string;
  req_headers : list (string * jsval);
  req_body : string
}.

Inductive promise_state : Type :=
| Pending
| Settled (o : outcome).

(** A promise and the callbacks attached to it with [then] or [catch]. *)
Record promise : Type := Promise {
  p_state : promise_state;
  p_reactions : list callback
}.

Record world : Type := World {
  document : list element;
  window_location : location;
  objects : list UploadURL;
  promises : list promise;
  requests : list request;
  value_reads : list nat
}.

Definition set_document (d : list element) (w : world) : world :=
  World d (window_location w) (objects w) (promises w) (requests w)
        (value_reads w).

Definition set_location (loc : location) (w : world) : world :=
  World (document w) loc (objects w) (promises w) (requests w)
        (value_reads w).

Definition set_objects (o : list UploadURL) (w : world) : world :=
  World (document w) (window_location w) o (promises w) (requests w)
        (value_reads w).

Definition set_promises (p : list promise) (w : world) : world :=
  World (document w) (window_location w) (objects w) p (requests w)
        (value_reads w).

Definition set_requests (r : list request) (w : world) : world :=
  World (document w) (window_location w) (objects w) (promises w) r
        (value_reads w).

Definition set_value_reads (v : list nat) (w : world) : world :=
  World (document w) (window_location w) (objects w) (promises w)
        (requests w) v.

(** ** The monad of JavaScript code *)

Inductive completion (A : Type) : Type :=
| Normal (a : A)
| Throw (e : exn).
Arguments Normal {A} a.
Arguments Throw {A} e.

Definition JS (A : Type) : Type := world -> completion A * world.

Definition ret {A : Type} (a : A) : JS A := fun w => (Normal a, w).

Definition throw {A : Type} (e : exn) : JS A := fun w => (Throw e, w).

Definition bind {A B : Type} (m : JS A) (k : A -> JS B) : JS B :=
  fun w =>
    match m w with
    | (Normal a, w') => k a w'
    | (Throw e, w') => (Throw e, w')
    end.

Notation "x <- m ;; k" := (bind m (fun x => k))
  (at level 100, m at next level, right associativity).
Notation "m ;;; k" := (bind m (fun _ => k))
  (at level 100, right associativity).

Definition modify (f : world -> world) : JS unit :=
  fun w => (Normal tt, f w).

Definition gets {A : Type} (f : world -> A) : JS A :=
  fun w => (Normal (f w), w).

(** ** JSON

    [JSON.stringify] and [JSON.parse] of the platform, for the values this
    program serialises: objects, arrays, strings, booleans and [null]
    (there is no number in its payloads, and the parser rejects them).
    A character is a code unit below 256. *)

Unset Elimination Schemes.
Inductive json : Type :=
| JNull
| JBool (b : bool)
| JStr (s : string)
| JArr (l : list json)
| JObj (m : list (string * json)).
Set Elimination Schemes.

Definition dquote : ascii := "034"%char.
Definition backslash : ascii := "092"%char.

Definition str1 (c : ascii) : string := String c EmptyString.

Definition hex_digit (n : nat) : ascii :=
  ascii_of_nat (if Nat.ltb n 10 then 48 + n else 87 + n).

(** One character of a string as [JSON.stringify] writes it. *)
Definition quote_char (c : ascii) : string :=
  let n := nat_of_ascii c in
  if Ascii.eqb c dquote then String backslash (str1 dquote)
  else if Ascii.eqb c backslash then String backslash (str1 backslash)
  else if Nat.eqb n 8 then String backslash "b"
  else if Nat.eqb n 9 then String backslash "t"
  else if Nat.eqb n 10 then String backslash "n"
  else if Nat.eqb n 12 then String backslash "f"
  else if Nat.eqb n 13 then String backslash "r"
  else if Nat.ltb n 32 then
    String backslash ("u00" +:+ String (hex_digit (n / 16))
                                       (str1 (hex_digit (n mod 16))))
  else str1 c.

Fixpoint quote_chars (s : string) : string :=
  match s with
  | EmptyString => EmptyString
  | String c s' => quote_char c +:+ quote_chars s'
  end.

Definition JSON_quote (s : string) : string :=
  String dquote (quote_chars s +:+ str1 dquote).

Fixpoint join (sep : string) (l : list string) : string :=
  match l with
  | [] => EmptyString
  | [x] => x
  | x :: l' => x +:+ sep +:+ join sep l'
  end.

Fixpoint JSON_stringify (v : json) : string :=
  match v with
  | JNull => "null"
  | JBool true => "true"
  | JBool false => "false"
  | JStr s => JSON_quote s
  | JArr l => "[" +:+ join "," (List.map JSON_stringify l) +:+ "]"
  | JObj m =>
      "{" +:+ join "," (List.map (fun kv =>
                 JSON_quote (fst kv) +:+ ":" +:+ JSON_stringify (snd kv)) m)
          +:+ "}"
  end.

Definition is_ws (c : ascii) : bool :=
  let n := nat_of_ascii c in
  Nat.eqb n 32 || Nat.eqb n 9 || Nat.eqb n 10 || Nat.eqb n 13.

Fixpoint skip_ws (s : string) : string :=
  match s with
  | EmptyString => EmptyString
  | String c s' => if is_ws c then skip_ws s' else s
  end.

Fixpoint strip_prefix (p s : string) : option string :=
  match p, s with
  | EmptyString, _ => Some s
  | String a p', String b s' =>
      if Ascii.eqb a b then strip_prefix p' s' else None
  | String _ _, EmptyString => None
  end.

Definition hex_value (c : ascii) : option nat :=
  let n := nat_of_ascii c in
  if Nat.leb 48 n && Nat.leb n 57 then Some (n - 48)
  else if Nat.leb 97 n && Nat.leb n 102 then Some (n - 87)
  else if Nat.leb 65 n && Nat.leb n 70 then Some (n - 55)
  else None.

(** The character of [\uXXXX], when it is below 256. *)
Definition hex4 (a b c d : ascii) : option ascii :=
  match hex_value a, hex_value b, hex_value c, hex_value d with
  | Some 0, Some 0, Some x, Some y => Some (ascii_of_nat (16 * x + y))
  | _, _, _, _ => None
  end.

Definition unescape (e : ascii) : option ascii :=
  if Ascii.eqb e dquote then Some dquote
  else if Ascii.eqb e backslash then Some backslash
  else if Ascii.eqb e "/" then Some "/"%char
  else if Ascii.eqb e "b" then Some (ascii_of_nat 8)
  else if Ascii.eqb e "t" then Some (ascii_of_nat 9)
  else if Ascii.eqb e "n" then Some (ascii_of_nat 10)
  else if Ascii.eqb e "f" then Some (ascii_of_nat 12)
  else if Ascii.eqb e "r" then Some (ascii_of_nat 13)
  else None.

Definition cons_char (c : ascii) (r : option (string * string))
  : option (string * string) :=
  match r with
  | Some (s, rest) => Some (String c s, rest)
  | None => None
  end.

(** The characters of a string literal after its opening quote, and what
    follows the closing quote. *)
Fixpoint parse_chars (s : string) : option (string * string) :=
  match s with
  | EmptyString => None
  | String c s1 =>
      if Ascii.eqb c dquote then Some (EmptyString, s1)
      else if Ascii.eqb c backslash then
        match s1 with
        | EmptyString => None
        | String e s2 =>
            if Ascii.eqb e "u" then
              match s2 with
              | String h1 (String h2 (String h3 (String h4 s3))) =>
                  match hex4 h1 h2 h3 h4 with
                  | Some c' => cons_char c' (parse_chars s3)
                  | None => None
                  end
              | _ => None
              end
            else
              match unescape e with
              | Some c' => cons_char c' (parse_chars s2)
              | None => None
              end
        end
      else if Nat.ltb (nat_of_ascii c) 32 then None
      else cons_char c (parse_chars s1)
  end.

Definition parse_string (s : string) : option (string * string) :=
  match s with
  | String c s' => if Ascii.eqb c dquote then parse_chars s' else None
  | EmptyString => None
  end.

Fixpoint parse_value (fuel : nat) (s : string) : option (json * string) :=
  match fuel with
  | O => None
  | S fuel' =>
      match skip_ws s with
      | EmptyString => None
      | String c r =>
          if Ascii.eqb c dquote then
            match parse_chars r with
            | Some (x, rest) => Some (JStr x, rest)
            | None => None
            end
          else if Ascii.eqb c "[" then
            match strip_prefix "]" (skip_ws r) with
            | Some rest => Some (JArr [], rest)
            | None =>
                match parse_elements fuel' r with
                | Some (l, rest) => Some (JArr l, rest)
                | None => None
                end
            end
          else if Ascii.eqb c "{" then
            match strip_prefix "}" (skip_ws r) with
            | Some rest => Some (JObj [], rest)
            | None =>
                match parse_members fuel' r with
                | Some (m, rest) => Some (JObj m, rest)
                | None => None
                end
            end
          else
            match strip_prefix "null" (String c r) with
            | Some rest => Some (JNull, rest)
            | None =>
            match strip_prefix "true" (String c r) with
            | Some rest => Some (JBool true, rest)
            | None =>
            match strip_prefix "false" (String c r) with
            | Some rest => Some (JBool false, rest)
            | None => None
            end end end
      end
  end
with parse_elements (fuel : nat) (s : string)
  : option (list json * string) :=
  match fuel with
  | O => None
  | S fuel' =>
      match parse_value fuel' s with
      | None => None
      | Some (v, rest) =>
          match skip_ws rest with
          | EmptyString => None
          | String c r =>
              if Ascii.eqb c "]" then Some ([v], r)
              else if Ascii.eqb c "," then
                match parse_elements fuel' r with
                | Some (l, rest') => Some (v :: l, rest')
                | None => None
                end
              else None
          end
      end
  end
with parse_members (fuel : nat) (s : string)
  : option (list (string * json) * string) :=
  match fuel with
  | O => None
  | S fuel' =>
      match parse_string (skip_ws s) with
      | None => None
      | Some (k, rest) =>
          match strip_prefix ":" (skip_ws rest) with
          | None => None
          | Some rest1 =>
              match parse_value fuel' rest1 with
              | None => None
              | Some (v, rest2) =>
                  match skip_ws rest2 with
                  | EmptyString => None
                  | String c r =>
                      if Ascii.eqb c "}" then Some ([(k, v)], r)
                      else if Ascii.eqb c "," then
                        match parse_members fuel' r with
                        | Some (m, rest') => Some ((k, v) :: m, rest')
                        | None => None
                        end
                      else None
                  end
              end
          end
      end
  end.

(** [JSON.parse]: [None] is its [SyntaxError].  Every call of the parser
    consumes a character before it recurses, so the length of the text
    (and one more) is fuel enough. *)
Definition JSON_parse (s : string) : option json :=
  match parse_value (S (String.length s)) s with
  | Some (v, rest) =>
      match skip_ws rest with
      | EmptyString => Some v
      | String _ _ => None
      end
  | None => None
  end.

(** ** URLs

    The split of an absolute URL into scheme, authority and path, as in
    RFC 3986, appendix B. *)

Fixpoint take_until (stop : ascii -> bool) (s : string) : string * string :=
  match s with
  | EmptyString => (EmptyString, EmptyString)
  | String c s' =>
      if stop c then (EmptyString, s)
      else let r := take_until stop s' in (String c (fst r), snd r)
  end.

Definition is_delim (c : ascii) : bool :=
  Ascii.eqb c "/" || Ascii.eqb c "?" || Ascii.eqb c "#".

Definition is_scheme_end (c : ascii) : bool :=
  Ascii.eqb c ":" || is_delim c.

Definition is_path_end (c : ascii) : bool :=
  Ascii.eqb c "?" || Ascii.eqb c "#".

Record url : Type := Url {
  url_scheme : string;
  url_authority : string;
  url_path : string
}.

Definition parse_url (u : string) : option url :=
  let s := take_until is_scheme_end u in
  match strip_prefix "://" (snd s) with
  | Some r =>
      let a := take_until is_delim r in
      let p := take_until is_path_end (snd a) in
      Some (Url (fst s) (fst a) (fst p))
  | None => None
  end.

Fixpoint no_delim (s : string) : bool :=
  match s with
  | EmptyString => true
  | String c s' => negb (is_delim c) && no_delim s'
  end.

(** What [window.location.host] can be on a page served over HTTP: a host
    name, with a port or not; it is not empty and holds no [/], [?] or
    [#].  (With an empty host a browser reads the first segment of the
    path as the host; [parse_url] does not follow it there.) *)
Definition valid_host (h : string) : bool :=
  negb (String.eqb h EmptyString) && no_delim h.

(** ** The platform: DOM, heap, network *)

(** Only id selectors occur in the program: [#name] selects the elements
    whose id is [name]. *)
Definition selector_id (sel : string) : option string :=
  match sel with
  | String c id => if Ascii.eqb c "#" then Some id else None
  | EmptyString => None
  end.

Definition selects (sel : string) (e : element) : Prop :=
  selector_id sel = Some (el_id e).

#[global] Instance selects_dec sel e : Decision (selects sel e).
Proof. unfold selects. apply _. Defined.

(** The first element of the document, in document order, that the
    selector selects. *)
Definition find_element (sel : string) (d : list element)
  : option (nat * element) :=
  list_find (selects sel) d.

Arguments find_element : simpl never.

(** [document.querySelector(sel)]: the node, or [null]. *)
Definition querySelector (sel : string) : JS jsval :=
  gets (fun w =>
    match find_element sel (document w) with
    | Some (n, _) => VNode n
    | None => VNull
    end).

(** [x.value]: reading a property of [null] or [undefined] throws; a value
    that is not an element has no such property.  The read of an element's
    value is recorded in [value_reads]. *)
Definition get_value (x : jsval) : JS jsval :=
  match x with
  | VNode n =>
      fun w =>
        (Normal (from_option el_value VUndefined (document w !! n)),
         set_value_reads (value_reads w ++ [n]) w)
  | VNull | VUndefined => throw (TypeError "value")
  | _ => ret VUndefined
  end.

Definition add_listener (type : string) (cb : callback) (e : element)
  : element :=
  Element (el_id e) (el_value e) (el_listeners e ++ [(type, cb)]).

(** [x.addEventListener(type, cb)]: only an element has the method.  A
    bound function is a new function at every [bind], so the listener is
    never a duplicate of one that is registered already. *)
Definition addEventListener (x : jsval) (type : string) (cb : callback)
  : JS unit :=
  match x with
  | VNode n =>
      modify (fun w =>
        set_document (alter (add_listener type cb) n (document w)) w)
  | _ => throw (TypeError "addEventListener")
  end.

(** The object [new] creates before it runs the constructor. *)
Definition alloc : JS nat :=
  fun w =>
    (Normal (length (objects w)),
     set_objects (objects w ++ [Build_UploadURL VUndefined VUndefined]) w).

Definition set_uploadButton (this : nat) (v : jsval) : JS unit :=
  modify (fun w =>
    set_objects
      (alter (fun o => Build_UploadURL v (csrfToken o)) this (objects w)) w).

Definition set_csrfToken (this : nat) (v : jsval) : JS unit :=
  modify (fun w =>
    set_objects
      (alter (fun o => Build_UploadURL (uploadButton o) v) this (objects w))
      w).

(** A property that is not set reads as [undefined]. *)
Definition get_uploadButton (this : nat) : JS jsval :=
  gets (fun w => from_option uploadButton VUndefined (objects w !! this)).

Definition get_csrfToken (this : nat) : JS jsval :=
  gets (fun w => from_option csrfToken VUndefined (objects w !! this)).

Definition window_location_host : JS string :=
  gets (fun w => loc_host (window_location w)).

(** [fetch(url, init)]: the request is logged, and the call returns a new
    pending promise with no reaction attached. *)
Definition fetch (r : request) : JS jsval :=
  fun w =>
    (Normal (VPromise (length (promises w))),
     set_promises (promises w ++ [Promise Pending []])
       (set_requests (requests w ++ [r]) w)).

(** ** The class [UploadURL] *)

Definition constructor (this : nat) : JS unit :=
  btn <- querySelector "#upload-url-btn" ;;
  set_uploadButton this btn ;;;
  target <- get_uploadButton this ;;
  addEventListener target "click" (handleUploadButtonBlick_bound this) ;;;
  field <- querySelector "#upload_url_csrf_token" ;;
  tok <- get_value field ;;
  set_csrfToken this tok.

(** [new UploadURL()] *)
Definition new_UploadURL : JS nat :=
  this <- alloc ;;
  constructor this ;;;
  ret this.

Definition handleUploadButtonBlick (this : nat) (event : jsval) : JS jsval :=
  let upload_url :=
    JObj [("url", JStr "https://flask.palletsprojects.com/en/3.0.x/extensions")]
  in
  host <- window_location_host ;;
  let url := "http://" +:+ host +:+ "/api/v1/upload_url" in
  tok <- get_csrfToken this ;;
  fetch (Request url "POST"
           [("Content-Type", VStr "application/json"); ("X-CSRFToken", tok)]
           (JSON_stringify upload_url)) ;;;
  ret VUndefined.

(** ** The event loop *)

Definition call (cb : callback) (arg : jsval) : JS jsval :=
  match cb with
  | handleUploadButtonBlick_bound this => handleUploadButtonBlick this arg
  end.

(** The listeners of the event's type run in the order of registration;
    what one returns or throws does not stop the next. *)
Definition run_listeners (ev : event) (ls : list (string * callback))
  (w : world) : world :=
  fold_left (fun w l =>
    if decide (fst l = ev_type ev) then snd (call (snd l) (VEvent ev) w)
    else w) ls w.

Definition dispatchEvent (n : nat) (ev : event) (w : world) : world :=
  match document w !! n with
  | Some e => run_listeners ev (el_listeners e) w
  | None => w
  end.

Definition settle_promise (o : outcome) (p : promise) : promise :=
  Promise (Settled o) (p_reactions p).

(** The network answers the request of promise [p]: a pending promise is
    settled and its reactions run. *)
Definition settle (p : nat) (o : outcome) (w : world) : world :=
  match promises w !! p with
  | Some (Promise Pending rs) =>
      fold_left (fun w cb => snd (call cb (VOutcome o) w)) rs
        (set_promises (alter (settle_promise o) p (promises w)) w)
  | _ => w
  end.

(** What can happen on the page between two points of its life: the user
    or another script changes the document, the location changes, an event
    is dispatched, a pending request is answered, another [UploadURL] is
    constructed. *)
Inductive page_step : world -> world -> Prop :=
| step_document d w : page_step w (set_document d w)
| step_location loc w : page_step w (set_location loc w)
| step_event n ev w : page_step w (dispatchEvent n ev w)
| step_settle p o w : page_step w (settle p o w)
| step_new w : page_step w (snd (new_UploadURL w)).

(** ** Observations used in the statements *)

Definition header (name : string) (r : request) : option jsval :=
  snd <$> List.find (fun h => String.eqb (fst h) name) (req_headers r).

(** The value of the first element the selector selects. *)
Definition field_value (sel : string) (w : world) : option jsval :=
  (fun ne => el_value (snd ne)) <$> find_element sel (document w).

Definition listeners_of (n : nat) (w : world) : list (string * callback) :=
  from_option el_listeners [] (document w !! n).

Definition the_payload_url : string :=
  "https://flask.palletsprojects.com/en/3.0.x/extensions".

(** The request a click issues in world [w], as the handler computes it. *)
Definition click_request (this : nat) (w : world) : request :=
  Request ("http://" +:+ loc_host (window_location w) +:+ "/api/v1/upload_url")
    "POST"
    [("Content-Type", VStr "application/json");
     ("X-CSRFToken", from_option csrfToken VUndefined (objects w !! this))]
    (JSON_stringify (JObj [("url", JStr the_payload_url)])).

(** The world after the constructor, run for the new object [this], has
    registered its listener on the node [b]. *)
Definition registered (b : nat) (this : nat) (w : world) : world :=
  set_document
    (alter (add_listener "click" (handleUploadButtonBlick_bound this)) b
           (document w))
    (set_objects (objects w ++ [Build_UploadURL (VNode b) VUndefined]) w).

(** The user, or a script, gives the element [n] a new value. *)
Definition set_value (n : nat) (v : jsval) (w : world) : world :=
  set_document
    (alter (fun e => Element (el_id e) v (el_listeners e)) n (document w)) w.

(** ** Pages to run the program on *)

(** A page with the input box, the button and the hidden token field,
    served over HTTPS. *)
Definition upload_page : world :=
  World [Element "upload-url-input" (VStr "https://example.org/docs") [];
         Element "upload-url-btn" VUndefined [];
         Element "upload_url_csrf_token" (VStr "token-1") []]
        (Location "https:" "localhost:5000") [] [] [] [].

(** The same page without the token field. *)
Definition page_without_field : world :=
  World [Element "upload-url-input" (VStr "https://example.org/docs") [];
         Element "upload-url-btn" VUndefined []]
        (Location "https:" "localhost:5000") [] [] [] [].

(** The same page without the button. *)
Definition page_without_button : world :=
  World [Element "upload-url-input" (VStr "https://example.org/docs") [];
         Element "upload_url_csrf_token" (VStr "token-1") []]
        (Location "https:" "localhost:5000") [] [] [] [].

Definition click_on_button : event := Event "click" 1 10 20.

Definition another_click : event := Event "click" 1 300 7.

(** ** The page over its life *)

Definition callback_this (cb : callback) : nat :=
  match cb with
  | handleUploadButtonBlick_bound this => this
  end.

(** The listeners of type [ty] registered on the node [n], in the order
    of registration. *)
Definition listeners_of_type (ty : string) (n : nat) (w : world)
  : list (string * callback) :=
  filter (fun l => fst l = ty) (listeners_of n w).

(** The events are dispatched to the node [n] one after the other. *)
Definition dispatchEvents (n : nat) (evs : list event) (w : world) : world :=
  fold_left (fun w ev => dispatchEvent n ev w) evs w.

(** No promise of the page has a reaction attached. *)
Definition no_reactions (w : world) : Prop :=
  Forall (fun p => p_reactions p = []) (promises w).

(** Every listener on the page is a click listener, bound to an object
    of the heap whose [uploadButton] is the element the listener is
    registered on. *)
Definition listeners_bound (w : world) : Prop :=
  forall n e ty cb,
    document w !! n = Some e ->
    (ty, cb) ∈ el_listeners e ->
    ty = "click" /\
    exists o, objects w !! callback_this cb = Some o /\
              uploadButton o = VNode n.

(** The steps of a page on which this program is the only script: the
    user edits a field, the location changes, an event is dispatched, a
    request is answered, an [UploadURL] is constructed. *)
Inductive script_step : world -> world -> Prop :=
| script_value n v w : script_step w (set_value n v w)
| script_location loc w : script_step w (set_location loc w)
| script_event n ev w : script_step w (dispatchEvent n ev w)
| script_settle p o w : script_step w (settle p o w)
| script_new w : script_step w (snd (new_UploadURL w)).

(** A page whose button already carries a click listener of an earlier
    construction. *)
Definition page_after_construction : world :=
  snd (new_UploadURL upload_page).

(** * Properties *)

(** ** The monad and the platform *)

Section Platform.
Implicit Types (w : world) (d : list element) (n this : nat).

(** Changing elements without changing their ids does not change what a
    selector finds, up to the change itself. *)
Lemma find_element_alter sel (f : element -> element) n d :
  (forall e, el_id (f e) = el_id e) ->
  find_element sel (alter f n d)
  = (fun ie => (fst ie, if decide (fst ie = n) then f (snd ie) else snd ie))
      <$> find_element sel d.
Proof.
  intros Hid. unfold find_element. revert n.
  assert (Hsel : forall e, selects sel (f e) <-> selects sel e).
  { intros e. unfold selects. rewrite Hid. reflexivity. }
  induction d as [|e d IH]; intros n; [reflexivity|].
  destruct n as [|n]; cbn [alter list_alter list_find].
  - destruct (decide (selects sel (f e))) as [H|H];
      destruct (decide (selects sel e)) as [H'|H'].
    + reflexivity.
    + exfalso. apply H', Hsel, H.
    + exfalso. apply H, Hsel, H'.
    + destruct (list_find (selects sel) d) as [[i x]|]; reflexivity.
  - destruct (decide (selects sel e)) as [H|H]; [reflexivity|].
    rewrite (IH n).
    destruct (list_find (selects sel) d) as [[i x]|]; cbn; [|reflexivity].
    destruct (decide (i = n)) as [->|Hne].
    + rewrite decide_True by reflexivity. reflexivity.
    + rewrite decide_False by lia. reflexivity.
Qed.

Lemma find_element_lookup sel d i e :
  find_element sel d = Some (i, e) -> d !! i = Some e /\ selects sel e.
Proof.
  unfold find_element. intros H%list_find_Some. tauto.
Qed.

Lemma alter_last {A} (f : A -> A) (l : list A) (x : A) :
  alter f (length l) (l ++ [x]) = l ++ [f x].
Proof.
  replace (length l) with (length l + 0) by lia.
  rewrite alter_app_r. reflexivity.
Qed.

(** The handler, run: it returns [undefined]; a request and its promise
    are appended to the world, and nothing else changes. *)
Lemma handler_run this (ev : jsval) w :
  handleUploadButtonBlick this ev w
  = (Normal VUndefined,
     set_promises (promises w ++ [Promise Pending []])
       (set_requests (requests w ++ [click_request this w]) w)).
Proof. reflexivity. Qed.

(** Settling a promise nobody reacts to only marks it settled. *)
Lemma settle_unobserved (p : nat) (o : outcome) w :
  promises w !! p = Some (Promise Pending []) ->
  settle p o w
  = set_promises (alter (settle_promise o) p (promises w)) w.
Proof. unfold settle. intros ->. reflexivity. Qed.

(** The three ways the constructor ends. *)
Lemma new_no_button w :
  find_element "#upload-url-btn" (document w) = None ->
  new_UploadURL w
  = (Throw (TypeError "addEventListener"),
     set_objects (objects w ++ [Build_UploadURL VNull VUndefined]) w).
Proof.
  intros H. unfold new_UploadURL, constructor, bind, alloc, querySelector,
    gets, set_uploadButton, get_uploadButton, modify. cbn.
  rewrite H. cbn. rewrite alter_last.
  rewrite lookup_app_r by lia. rewrite Nat.sub_diag. reflexivity.
Qed.

Lemma new_no_field w b be :
  find_element "#upload-url-btn" (document w) = Some (b, be) ->
  find_element "#upload_url_csrf_token" (document w) = None ->
  new_UploadURL w
  = (Throw (TypeError "value"), registered b (length (objects w)) w).
Proof.
  intros Hb Ht. unfold new_UploadURL, constructor, bind, alloc,
    querySelector, gets, set_uploadButton, get_uploadButton, modify. cbn.
  rewrite Hb. cbn. rewrite alter_last.
  rewrite lookup_app_r by lia. rewrite Nat.sub_diag. cbn.
  rewrite find_element_alter by reflexivity. rewrite Ht. reflexivity.
Qed.

Lemma new_both w b be t te :
  find_element "#upload-url-btn" (document w) = Some (b, be) ->
  find_element "#upload_url_csrf_token" (document w) = Some (t, te) ->
  new_UploadURL w
  = (Normal (length (objects w)),
     set_objects
       (objects w ++ [Build_UploadURL (VNode b) (el_value te)])
       (set_value_reads (value_reads w ++ [t])
          (registered b (length (objects w)) w))).
Proof.
  intros Hb Ht. unfold new_UploadURL, constructor, bind, alloc,
    querySelector, gets, set_uploadButton, get_uploadButton, modify. cbn.
  rewrite Hb. cbn. rewrite alter_last.
  rewrite lookup_app_r by lia. rewrite Nat.sub_diag. cbn.
  rewrite find_element_alter by reflexivity. rewrite Ht. cbn.
  apply find_element_lookup in Ht as [Ht _].
  unfold set_csrfToken, modify, set_objects, set_value_reads,
    set_document. cbn.
  rewrite alter_last. cbn.
  rewrite list_lookup_alter.
  destruct (decide (b = t)) as [->|_]; rewrite Ht; reflexivity.
Qed.
End Platform.

(** ** JSON *)

Example JSON_roundtrip_example :
  JSON_parse (JSON_stringify
    (JObj [("a", JArr [JStr (String dquote "x"); JNull; JBool true]);
           ("b", JObj [])]))
  = Some (JObj [("a", JArr [JStr (String dquote "x"); JNull; JBool true]);
                ("b", JObj [])]).
Proof. vm_compute. reflexivity. Qed.

Lemma string_app_assoc (a b c : string) :
  (a +:+ b) +:+ c = a +:+ (b +:+ c).
Proof.
  induction a as [|x a IH]; [reflexivity|].
  change (String x ((a +:+ b) +:+ c) = String x (a +:+ (b +:+ c))).
  rewrite IH. reflexivity.
Qed.

(** The parser reads back a character as [JSON.stringify] writes it. *)
Lemma parse_quote_char (c : ascii) (rest : string) :
  parse_chars (quote_char c +:+ rest) = cons_char c (parse_chars rest).
Proof.
  destruct c as [[] [] [] [] [] [] [] []]; reflexivity.
Qed.

Lemma parse_quote_chars (s rest : string) :
  parse_chars (quote_chars s +:+ String dquote rest) = Some (s, rest).
Proof.
  induction s as [|c s IH]; [reflexivity|].
  cbn [quote_chars]. rewrite string_app_assoc.
  rewrite parse_quote_char, IH. reflexivity.
Qed.

(** A string literal round-trips, whatever follows it. *)
Lemma parse_string_quote (s rest : string) :
  parse_string (JSON_quote s +:+ rest) = Some (s, rest).
Proof.
  unfold JSON_quote, str1.
  change (parse_chars
            ((quote_chars s +:+ String dquote EmptyString) +:+ rest)
          = Some (s, rest)).
  rewrite string_app_assoc. apply parse_quote_chars.
Qed.

(** ** URLs *)

Lemma take_until_host (h rest : string) :
  no_delim h = true ->
  take_until is_delim (h +:+ String "/" rest) = (h, String "/" rest).
Proof.
  induction h as [|c h IH]; intros H; [reflexivity|].
  cbn [no_delim] in H. apply andb_prop in H as [Hc Hh].
  change (String c h +:+ String "/" rest)
    with (String c (h +:+ String "/" rest)).
  cbn [take_until].
  apply negb_true_iff in Hc. rewrite Hc, (IH Hh). reflexivity.
Qed.

Lemma parse_url_of_host (h : string) :
  no_delim h = true ->
  parse_url ("http://" +:+ h +:+ "/api/v1/upload_url")
  = Some (Url "http" h "/api/v1/upload_url").
Proof.
  intros H. unfold parse_url.
  assert (E1 : take_until is_scheme_end
                 ("http://" +:+ h +:+ "/api/v1/upload_url")
               = ("http", "://" +:+ h +:+ "/api/v1/upload_url"))
    by reflexivity.
  rewrite E1. cbn [fst snd].
  assert (E2 : strip_prefix "://" ("://" +:+ h +:+ "/api/v1/upload_url")
               = Some (h +:+ "/api/v1/upload_url"))
    by reflexivity.
  rewrite E2, (take_until_host h "api/v1/upload_url" H).
  reflexivity.
Qed.

(** ** What a step of the page preserves *)

Section Steps.
Implicit Types (w : world) (this : nat).

Lemma new_objects w :
  exists o, objects (snd (new_UploadURL w)) = objects w ++ [o].
Proof.
  destruct (find_element "#upload-url-btn" (document w))
    as [[b be]|] eqn:Hb.
  - destruct (find_element "#upload_url_csrf_token" (document w))
      as [[t te]|] eqn:Ht.
    + rewrite (new_both w b be t te Hb Ht). eexists. reflexivity.
    + rewrite (new_no_field w b be Hb Ht). eexists. reflexivity.
  - rewrite (new_no_button w Hb). eexists. reflexivity.
Qed.

Lemma call_objects cb (arg : jsval) w :
  objects (snd (call cb arg w)) = objects w.
Proof. destruct cb. reflexivity. Qed.

Lemma call_document cb (arg : jsval) w :
  document (snd (call cb arg w)) = document w.
Proof. destruct cb. reflexivity. Qed.

Lemma run_listeners_objects ev ls w :
  objects (run_listeners ev ls w) = objects w.
Proof.
  unfold run_listeners. revert w.
  induction ls as [|l ls IH]; intros w; [reflexivity|].
  cbn [fold_left]. rewrite IH.
  destruct (decide (fst l = ev_type ev)); [apply call_objects|reflexivity].
Qed.

Lemma dispatchEvent_objects n ev w :
  objects (dispatchEvent n ev w) = objects w.
Proof.
  unfold dispatchEvent. destruct (document w !! n); [|reflexivity].
  apply run_listeners_objects.
Qed.

Lemma run_reactions_objects (o : outcome) rs w :
  objects (fold_left (fun w cb => snd (call cb (VOutcome o) w)) rs w)
  = objects w.
Proof.
  revert w. induction rs as [|cb rs IH]; intros w; [reflexivity|].
  cbn [fold_left]. rewrite IH. apply call_objects.
Qed.

Lemma settle_objects p o w : objects (settle p o w) = objects w.
Proof.
  unfold settle. destruct (promises w !! p) as [[[|] rs]|];
    try reflexivity.
  rewrite run_reactions_objects. reflexivity.
Qed.

(** A step never removes an object from the heap nor writes to one that
    is there. *)
Lemma page_step_objects w w' :
  page_step w w' -> objects w `prefix_of` objects w'.
Proof.
  intros [d w0|loc w0|n ev w0|p o w0|w0].
  - reflexivity.
  - reflexivity.
  - rewrite dispatchEvent_objects. reflexivity.
  - rewrite settle_objects. reflexivity.
  - destruct (new_objects w0) as [o ->]. apply prefix_app_r. reflexivity.
Qed.

Lemma reachable_objects w w' :
  rtc page_step w w' -> objects w `prefix_of` objects w'.
Proof.
  induction 1 as [|w1 w2 w3 H _ IH]; [reflexivity|].
  etrans; [apply page_step_objects, H|apply IH].
Qed.

Lemma reachable_lookup w w' this o :
  rtc page_step w w' ->
  objects w !! this = Some o -> objects w' !! this = Some o.
Proof.
  intros H%reachable_objects Ho. eapply prefix_lookup_Some; eassumption.
Qed.

(** After a successful construction the object holds the value the
    token field had when the constructor ran, and keeps it. *)
Lemma constructed_token w0 this w1 w :
  new_UploadURL w0 = (Normal this, w1) ->
  rtc page_step w1 w ->
  exists tok,
    field_value "#upload_url_csrf_token" w0 = Some tok /\
    from_option csrfToken VUndefined (objects w !! this) = tok.
Proof.
  intros Hnew Hreach.
  destruct (find_element "#upload-url-btn" (document w0))
    as [[b be]|] eqn:Hb;
    [|rewrite (new_no_button w0 Hb) in Hnew; discriminate].
  destruct (find_element "#upload_url_csrf_token" (document w0))
    as [[t te]|] eqn:Ht;
    [|rewrite (new_no_field w0 b be Hb Ht) in Hnew; discriminate].
  rewrite (new_both w0 b be t te Hb Ht) in Hnew.
  injection Hnew as <- <-.
  exists (el_value te). split.
  - unfold field_value. rewrite Ht. reflexivity.
  - rewrite (reachable_lookup _ w (length (objects w0))
               (Build_UploadURL (VNode b) (el_value te)) Hreach);
      [reflexivity|].
    cbn. rewrite lookup_app_r by lia. rewrite Nat.sub_diag. reflexivity.
Qed.
End Steps.

(** ** The click handler *)

Section Handler.
Variables (this : nat) (event : jsval) (w : world).


(** C3. The body of the request a click issues parses, as JSON, to an
    object with exactly one key, [url], whose value is a string, and the
    request's [Content-Type] header is [application/json]. *)
Theorem body_is_json_object_with_url :
  exists r w' s,
    handleUploadButtonBlick this event w = (Normal VUndefined, w') /\
    requests w' = requests w ++ [r] /\
    JSON_parse (req_body r) = Some (JObj [("url", JStr s)]) /\
    header "Content-Type" r = Some (VStr "application/json").
Proof.
  exists (click_request this w). do 2 eexists.
  split; [apply handler_run|].
  split; [reflexivity|].
  split; [vm_compute; reflexivity|reflexivity].
Qed.

(** C4. A run of the click handler has no effect but its one call of
    [fetch]: the document, the fields of every [UploadURL] object and
    the location are as before, no value of an element was read, and
    the request log and the promise table each grew by exactly the
    entry of that call. *)
Theorem click_has_no_other_effect :
  exists r w',
    handleUploadButtonBlick this event w = (Normal VUndefined, w') /\
    document w' = document w /\
    objects w' = objects w /\
    window_location w' = window_location w /\
    value_reads w' = value_reads w /\
    requests w' = requests w ++ [r] /\
    promises w' = promises w ++ [Promise Pending []].
Proof.
  exists (click_request this w). eexists.
  split; [apply handler_run|].
  repeat split.
Qed.

(** C5. The click handler is fire-and-forget: it returns [undefined],
    the promise of its [fetch] is left pending with no reaction
    attached, and however the request ends (a response of any status or
    a network failure) nothing runs: the objects, the document and the
    request log are what they were when the handler returned, and the
    objects are what they were before it ran. *)
Theorem click_is_fire_and_forget (o : outcome) :
  exists w',
    handleUploadButtonBlick this event w = (Normal VUndefined, w') /\
    objects w' = objects w /\
    promises w' !! length (promises w) = Some (Promise Pending []) /\
    let w'' := settle (length (promises w)) o w' in
    objects w'' = objects w /\
    document w'' = document w' /\
    requests w'' = requests w' /\
    promises w'' = promises w ++ [Promise (Settled o) []].
Proof.
  eexists. split; [apply handler_run|].
  split; [reflexivity|].
  assert (Hp : (promises w ++ [Promise Pending []]) !! length (promises w)
               = Some (Promise Pending [])).
  { rewrite lookup_app_r by lia. rewrite Nat.sub_diag. reflexivity. }
  split; [exact Hp|].
  match goal with
  | |- context [settle _ _ ?w'] =>
      rewrite (settle_unobserved (length (promises w)) o w' Hp)
  end. cbn.
  split; [reflexivity|]. split; [reflexivity|]. split; [reflexivity|].
  rewrite alter_last. reflexivity.
Qed.

(** C8. The [url] field of the body of every request a click issues is
    the constant of the source, whatever the event, the object and the
    state of the page (the input box included) are. *)
Theorem payload_is_hardcoded :
  exists r w',
    handleUploadButtonBlick this event w = (Normal VUndefined, w') /\
    requests w' = requests w ++ [r] /\
    JSON_parse (req_body r)
    = Some (JObj [("url",
         JStr "https://flask.palletsprojects.com/en/3.0.x/extensions")]).
Proof.
  exists (click_request this w). eexists.
  split; [apply handler_run|].
  split; [reflexivity|vm_compute; reflexivity].
Qed.

(** C9. The URL of the request a click issues is [http://], then the
    host of the page's location when the handler runs, then
    [/api/v1/upload_url]: its scheme is [http] whatever the protocol of
    the page's location is. *)
Theorem request_url_is_http_host_path (protocol host : string) :
  exists r w',
    handleUploadButtonBlick this event
      (set_location (Location protocol host) w)
    = (Normal VUndefined, w') /\
    requests w' = requests w ++ [r] /\
    req_url r = "http://" +:+ host +:+ "/api/v1/upload_url" /\
    fst (take_until is_scheme_end (req_url r)) = "http".
Proof.
  eexists. eexists.
  split; [apply handler_run|].
  repeat split.
Qed.
End Handler.


(** ** The constructor *)

Section Constructor.
Implicit Types (w : world) (this b t : nat).

Lemma listeners_of_registered w b be this :
  document w !! b = Some be ->
  listeners_of b (registered b this w)
  = listeners_of b w ++ [("click", handleUploadButtonBlick_bound this)].
Proof.
  intros Hb. unfold listeners_of, registered. cbn.
  rewrite list_lookup_alter_eq, Hb. reflexivity.
Qed.

Lemma listeners_of_registered_ne w b n this :
  n <> b -> listeners_of n (registered b this w) = listeners_of n w.
Proof.
  intros Hn. unfold listeners_of, registered. cbn.
  rewrite list_lookup_alter_ne by congruence. reflexivity.
Qed.

(** A construction that succeeded found both elements. *)
Lemma new_success_inv w0 this w1 :
  new_UploadURL w0 = (Normal this, w1) ->
  exists b be t te,
    find_element "#upload-url-btn" (document w0) = Some (b, be) /\
    find_element "#upload_url_csrf_token" (document w0) = Some (t, te) /\
    this = length (objects w0) /\
    w1 = set_objects
           (objects w0 ++ [Build_UploadURL (VNode b) (el_value te)])
           (set_value_reads (value_reads w0 ++ [t])
              (registered b (length (objects w0)) w0)).
Proof.
  intros Hnew.
  destruct (find_element "#upload-url-btn" (document w0))
    as [[b be]|] eqn:Hb;
    [|rewrite (new_no_button w0 Hb) in Hnew; discriminate].
  destruct (find_element "#upload_url_csrf_token" (document w0))
    as [[t te]|] eqn:Ht;
    [|rewrite (new_no_field w0 b be Hb Ht) in Hnew; discriminate].
  rewrite (new_both w0 b be t te Hb Ht) in Hnew.
  injection Hnew as <- <-.
  exists b, be, t, te. repeat split.
Qed.

(** C7 (amended). What the constructor does is decided by the two
    elements it looks up.  With both on the page it succeeds, returns
    the new object, and has registered the click listener, bound to
    that object, on the button and on no other element.  Without the
    button it throws and leaves the document as it was: no listener is
    registered.  With the button but without the token field it throws
    too, but only after it has registered the click listener on the
    button. *)
Theorem constructor_needs_both_elements w :
  let this := length (objects w) in
  let listener := ("click", handleUploadButtonBlick_bound this) in
  match find_element "#upload-url-btn" (document w),
        find_element "#upload_url_csrf_token" (document w) with
  | Some (b, _), Some (t, _) =>
      exists w',
        new_UploadURL w = (Normal this, w') /\
        listeners_of b w' = listeners_of b w ++ [listener] /\
        (forall n, n <> b -> listeners_of n w' = listeners_of n w)
  | Some (b, _), None =>
      exists e w',
        new_UploadURL w = (Throw e, w') /\
        listeners_of b w' = listeners_of b w ++ [listener]
  | None, _ =>
      exists e w',
        new_UploadURL w = (Throw e, w') /\
        document w' = document w
  end.
Proof.
  intros this listener.
  destruct (find_element "#upload-url-btn" (document w))
    as [[b be]|] eqn:Hb.
  - pose proof (find_element_lookup _ _ _ _ Hb) as [Hlb _].
    destruct (find_element "#upload_url_csrf_token" (document w))
      as [[t te]|] eqn:Ht.
    + eexists. split; [apply (new_both w b be t te Hb Ht)|]. split.
      * apply (listeners_of_registered w b be this Hlb).
      * intros n Hn. apply (listeners_of_registered_ne w b n this Hn).
    + do 2 eexists. split; [apply (new_no_field w b be Hb Ht)|].
      apply (listeners_of_registered w b be this Hlb).
  - do 2 eexists. split; [apply (new_no_button w Hb)|]. reflexivity.
Qed.

(** C7, as stated, fails: on a page with the button and without the
    token field the constructor throws, and the button, which had no
    listener, has one after it. *)
Lemma constructor_throws_after_registering :
  find_element "#upload-url-btn" (document page_without_field)
    = Some (1, Element "upload-url-btn" VUndefined []) /\
  find_element "#upload_url_csrf_token" (document page_without_field)
    = None /\
  fst (new_UploadURL page_without_field) = Throw (TypeError "value") /\
  listeners_of 1 page_without_field = [] /\
  listeners_of 1 (snd (new_UploadURL page_without_field))
    = [("click", handleUploadButtonBlick_bound 0)].
Proof. repeat split. Qed.
End Constructor.

(** ** Clicks after the construction *)

Section Clicks.
Implicit Types (w : world) (this : nat) (event : jsval).

Lemma header_token this w :
  header "X-CSRFToken" (click_request this w)
  = Some (from_option csrfToken VUndefined (objects w !! this)).
Proof. reflexivity. Qed.

(** C2 (amended). Once an [UploadURL] is constructed, the request of
    every later click carries the header [X-CSRFToken], and its value
    is the value the element [#upload_url_csrf_token] had when the
    constructor ran; it is the value the element has when the click
    happens whenever that value is still the one of construction
    time. *)
Theorem csrf_header_is_field_value w0 this w1 w event :
  new_UploadURL w0 = (Normal this, w1) ->
  rtc page_step w1 w ->
  exists r w',
    handleUploadButtonBlick this event w = (Normal VUndefined, w') /\
    requests w' = requests w ++ [r] /\
    header "X-CSRFToken" r = field_value "#upload_url_csrf_token" w0 /\
    (field_value "#upload_url_csrf_token" w
       = field_value "#upload_url_csrf_token" w0 ->
     header "X-CSRFToken" r = field_value "#upload_url_csrf_token" w).
Proof.
  intros Hnew Hreach.
  destruct (constructed_token w0 this w1 w Hnew Hreach) as (tok & Hf & Ht).
  exists (click_request this w). eexists.
  split; [apply handler_run|]. split; [reflexivity|].
  rewrite header_token, Ht, Hf.
  split; [reflexivity|]. intros ->. reflexivity.
Qed.

(** C2, as stated, fails: the token field of [upload_page] holds
    [token-1] when the object is constructed and is given the value
    [token-2] before the click; the request of the click carries
    [token-1], not the value the field has at click time. *)
Lemma csrf_header_is_not_click_time_value :
  let w1 := snd (new_UploadURL upload_page) in
  let w := set_value 2 (VStr "token-2") w1 in
  let w' := snd (handleUploadButtonBlick 0 (VEvent click_on_button) w) in
  new_UploadURL upload_page = (Normal 0, w1) /\
  page_step w1 w /\
  field_value "#upload_url_csrf_token" w = Some (VStr "token-2") /\
  (exists r,
     requests w' = requests w ++ [r] /\
     header "X-CSRFToken" r = Some (VStr "token-1") /\
     header "X-CSRFToken" r <> field_value "#upload_url_csrf_token" w).
Proof.
  split; [reflexivity|].
  split; [apply step_document|].
  split; [reflexivity|].
  eexists. split; [reflexivity|].
  split; [reflexivity|discriminate].
Qed.

(** C6. The token is read from the field [#upload_url_csrf_token]
    exactly once, by the constructor: construction adds one read, of
    that field, to the reads of element values, and a click adds none.
    On every click after the construction, whatever happened on the
    page in between (the field's value may have changed), the header
    [X-CSRFToken] of the request is the value the field had at
    construction time. *)
Theorem token_is_read_once_at_construction w0 this w1 w event :
  new_UploadURL w0 = (Normal this, w1) ->
  rtc page_step w1 w ->
  exists t tok r w',
    fst <$> find_element "#upload_url_csrf_token" (document w0) = Some t /\
    field_value "#upload_url_csrf_token" w0 = Some tok /\
    value_reads w1 = value_reads w0 ++ [t] /\
    handleUploadButtonBlick this event w = (Normal VUndefined, w') /\
    value_reads w' = value_reads w /\
    requests w' = requests w ++ [r] /\
    header "X-CSRFToken" r = Some tok.
Proof.
  intros Hnew Hreach.
  destruct (constructed_token w0 this w1 w Hnew Hreach) as (tok & Hf & Ht).
  destruct (new_success_inv w0 this w1 Hnew)
    as (b & be & t & te & _ & Hfind & _ & ->).
  exists t, tok, (click_request this w). eexists.
  split; [rewrite Hfind; reflexivity|].
  split; [exact Hf|]. split; [reflexivity|].
  split; [apply handler_run|]. split; [reflexivity|].
  split; [reflexivity|].
  rewrite header_token, Ht. reflexivity.
Qed.

(** C10. The handler never looks at its event: run on two events in the
    same world it does the same.  And any two clicks on the same
    constructed object, at whatever two later points of the page's life
    where the location's host is the same, issue identical requests:
    same method, URL, headers and body. *)
Theorem clicks_issue_identical_requests w0 this wc w1 w2 event1 event2 :
  new_UploadURL w0 = (Normal this, wc) ->
  rtc page_step wc w1 ->
  rtc page_step wc w2 ->
  loc_host (window_location w1) = loc_host (window_location w2) ->
  handleUploadButtonBlick this event1 w1
    = handleUploadButtonBlick this event2 w1 /\
  exists r w1' w2',
    handleUploadButtonBlick this event1 w1 = (Normal VUndefined, w1') /\
    requests w1' = requests w1 ++ [r] /\
    handleUploadButtonBlick this event2 w2 = (Normal VUndefined, w2') /\
    requests w2' = requests w2 ++ [r].
Proof.
  intros Hnew H1 H2 Hhost.
  split; [reflexivity|].
  destruct (constructed_token w0 this wc w1 Hnew H1) as (tok & Hf & Ht1).
  destruct (constructed_token w0 this wc w2 Hnew H2) as (tok' & Hf' & Ht2).
  assert (tok' = tok) as -> by congruence.
  exists (click_request this w1). do 2 eexists.
  split; [apply handler_run|]. split; [reflexivity|].
  split; [apply handler_run|].
  cbn [requests set_promises set_requests]. do 2 f_equal.
  unfold click_request. rewrite Ht1, Ht2, Hhost. reflexivity.
Qed.

(** The wiring: after a construction, an event of type [click]
    dispatched to the button runs the listeners that were there before
    and then the handler bound to the new object. *)
Lemma click_runs_the_handler w0 this w1 b be ev :
  find_element "#upload-url-btn" (document w0) = Some (b, be) ->
  new_UploadURL w0 = (Normal this, w1) ->
  ev_type ev = "click" ->
  dispatchEvent b ev w1
  = snd (handleUploadButtonBlick this (VEvent ev)
           (run_listeners ev (el_listeners be) w1)).
Proof.
  intros Hb Hnew Hty.
  destruct (new_success_inv w0 this w1 Hnew)
    as (b' & be' & t & te & Hb' & _ & -> & ->).
  rewrite Hb in Hb'. injection Hb' as <- <-.
  apply find_element_lookup in Hb as [Hb _].
  unfold dispatchEvent. cbn [document set_objects set_value_reads
    registered set_document].
  rewrite list_lookup_alter_eq, Hb. cbn [fmap option_fmap option_map
    add_listener el_listeners].
  unfold run_listeners at 1. rewrite fold_left_app. cbn [fold_left fst snd].
  rewrite decide_True by (symmetry; exact Hty). reflexivity.
Qed.
End Clicks.

Lemma csrf_header_is_field_value_witness :
  let w1 := snd (new_UploadURL upload_page) in
  let w := dispatchEvent 1 click_on_button w1 in
  new_UploadURL upload_page = (Normal 0, w1) /\
  rtc page_step w1 w /\
  exists r w',
    handleUploadButtonBlick 0 (VEvent another_click) w
    = (Normal VUndefined, w') /\
    requests w' = requests w ++ [r] /\
    header "X-CSRFToken" r = field_value "#upload_url_csrf_token" upload_page /\
    (field_value "#upload_url_csrf_token" w
       = field_value "#upload_url_csrf_token" upload_page ->
     header "X-CSRFToken" r = field_value "#upload_url_csrf_token" w).
Proof.
  split; [reflexivity|].
  split; [apply rtc_once, step_event|].
  apply (csrf_header_is_field_value upload_page 0
           (snd (new_UploadURL upload_page))
           (dispatchEvent 1 click_on_button (snd (new_UploadURL upload_page)))
           (VEvent another_click)).
  - reflexivity.
  - apply rtc_once, step_event.
Defined.

Lemma token_is_read_once_at_construction_witness :
  let w1 := snd (new_UploadURL upload_page) in
  let w := set_value 2 (VStr "token-2") w1 in
  new_UploadURL upload_page = (Normal 0, w1) /\
  rtc page_step w1 w /\
  exists t tok r w',
    fst <$> find_element "#upload_url_csrf_token" (document upload_page)
      = Some t /\
    field_value "#upload_url_csrf_token" upload_page = Some tok /\
    value_reads w1 = value_reads upload_page ++ [t] /\
    handleUploadButtonBlick 0 (VEvent click_on_button) w
      = (Normal VUndefined, w') /\
    value_reads w' = value_reads w /\
    requests w' = requests w ++ [r] /\
    header "X-CSRFToken" r = Some tok.
Proof.
  split; [reflexivity|].
  split; [apply rtc_once, step_document|].
  apply (token_is_read_once_at_construction upload_page 0
           (snd (new_UploadURL upload_page))
           (set_value 2 (VStr "token-2") (snd (new_UploadURL upload_page)))
           (VEvent click_on_button)).
  - reflexivity.
  - apply rtc_once, step_document.
Defined.

Lemma clicks_issue_identical_requests_witness :
  let wc := snd (new_UploadURL upload_page) in
  let w1 := set_value 0 (VStr "https://example.org/other") wc in
  let w2 := dispatchEvent 1 click_on_button w1 in
  new_UploadURL upload_page = (Normal 0, wc) /\
  rtc page_step wc w1 /\
  rtc page_step wc w2 /\
  loc_host (window_location w1) = loc_host (window_location w2) /\
  handleUploadButtonBlick 0 (VEvent click_on_button) w1
    = handleUploadButtonBlick 0 (VEvent another_click) w1 /\
  exists r w1' w2',
    handleUploadButtonBlick 0 (VEvent click_on_button) w1
      = (Normal VUndefined, w1') /\
    requests w1' = requests w1 ++ [r] /\
    handleUploadButtonBlick 0 (VEvent another_click) w2
      = (Normal VUndefined, w2') /\
    requests w2' = requests w2 ++ [r].
Proof.
  intros wc w1 w2.
  assert (H1 : rtc page_step wc w1) by apply rtc_once, step_document.
  assert (H2 : rtc page_step wc w2).
  { eapply rtc_r; [exact H1|apply step_event]. }
  split; [reflexivity|].
  split; [exact H1|]. split; [exact H2|]. split; [reflexivity|].
  apply (clicks_issue_identical_requests upload_page 0 wc w1 w2
           (VEvent click_on_button) (VEvent another_click)).
  - reflexivity.
  - exact H1.
  - exact H2.
  - reflexivity.
Defined.

(** ** The program, run *)

(** The text of the body. *)
Example body_text :
  JSON_stringify
    (JObj [("url", JStr "https://flask.palletsprojects.com/en/3.0.x/extensions")])
  = "{" +:+ String dquote ("url" +:+ String dquote (":" +:+ String dquote
      ("https://flask.palletsprojects.com/en/3.0.x/extensions"
       +:+ String dquote "}"))).
Proof. reflexivity. Qed.

(** Construction and one click on [upload_page]: one request, to the
    page's host over [http], with the token of the field. *)
Example click_on_upload_page :
  requests (dispatchEvent 1 click_on_button (snd (new_UploadURL upload_page)))
  = [Request "http://localhost:5000/api/v1/upload_url" "POST"
       [("Content-Type", VStr "application/json");
        ("X-CSRFToken", VStr "token-1")]
       (JSON_stringify
          (JObj [("url",
             JStr "https://flask.palletsprojects.com/en/3.0.x/extensions")]))].
Proof. reflexivity. Qed.

(** Without the button the constructor throws before it registers
    anything. *)
Example construction_without_button :
  fst (new_UploadURL page_without_button)
    = Throw (TypeError "addEventListener") /\
  document (snd (new_UploadURL page_without_button))
    = document page_without_button.
Proof. split; reflexivity. Qed.

(** The listener a failed construction leaves on the button is live: a
    click posts with an [undefined] token. *)
Example click_after_failed_construction :
  header "X-CSRFToken" <$>
    requests (dispatchEvent 1 click_on_button
                (snd (new_UploadURL page_without_field)))
  = [Some VUndefined].
Proof. reflexivity. Qed.

(** Every construction registers a listener of its own: after two, one
    click runs the handler twice. *)
Example click_after_two_constructions :
  length (requests
    (dispatchEvent 1 click_on_button
       (snd (new_UploadURL (snd (new_UploadURL upload_page))))))
  = 2.
Proof. reflexivity. Qed.

(** ** Dispatch, click after click *)

Section Dispatch.
Implicit Types (w : world) (n b this : nat) (ev : event).

Lemma world_unchanged w :
  set_promises (promises w ++ []) (set_requests (requests w ++ []) w) = w.
Proof.
  destruct w. unfold set_promises, set_requests. cbn.
  rewrite !app_nil_r. reflexivity.
Qed.

(** What running a list of listeners does: every listener of the event's
    type posts once, in the order of registration, and that is all. *)
Lemma run_listeners_run ev ls w :
  run_listeners ev ls w
  = set_promises
      (promises w
       ++ replicate (length (filter (fun l => fst l = ev_type ev) ls))
            (Promise Pending []))
      (set_requests
         (requests w
          ++ List.map (fun l => click_request (callback_this (snd l)) w)
               (filter (fun l => fst l = ev_type ev) ls))
         w).
Proof.
  unfold run_listeners. revert w.
  induction ls as [|[ty [this]] ls IH]; intros w.
  - symmetry. apply world_unchanged.
  - cbn [fold_left fst snd call]. rewrite filter_cons. cbn [fst].
    destruct (decide (ty = ev_type ev)) as [_|_]; [|apply IH].
    rewrite handler_run, IH. cbn [snd].
    unfold set_promises, set_requests. cbn.
    rewrite <- !app_assoc. reflexivity.
Qed.

Lemma dispatchEvent_run n ev w :
  dispatchEvent n ev w
  = set_promises
      (promises w
       ++ replicate (length (listeners_of_type (ev_type ev) n w))
            (Promise Pending []))
      (set_requests
         (requests w
          ++ List.map (fun l => click_request (callback_this (snd l)) w)
               (listeners_of_type (ev_type ev) n w))
         w).
Proof.
  unfold dispatchEvent, listeners_of_type, listeners_of.
  destruct (document w !! n) as [e|]; cbn [from_option].
  - apply run_listeners_run.
  - symmetry. apply world_unchanged.
Qed.

(** X3. An event dispatched to a node makes one request per listener of
    the event's type registered on the node, no more and no fewer; each
    is a POST to the upload endpoint on the page's host.  The dispatch
    changes neither the document nor the objects. *)
Theorem dispatch_posts_once_per_listener n ev w :
  exists rs,
    requests (dispatchEvent n ev w) = requests w ++ rs /\
    length rs = length (listeners_of_type (ev_type ev) n w) /\
    Forall (fun r =>
      req_method r = "POST" /\
      req_url r
      = "http://" +:+ loc_host (window_location w) +:+ "/api/v1/upload_url")
      rs /\
    document (dispatchEvent n ev w) = document w /\
    objects (dispatchEvent n ev w) = objects w.
Proof.
  rewrite dispatchEvent_run. eexists.
  split; [reflexivity|]. split; [apply length_map|].
  split; [|split; reflexivity].
  apply Forall_forall. intros r Hr%list_elem_of_In. apply in_map_iff in Hr as (l & <- & _).
  split; reflexivity.
Qed.
End Dispatch.

Section Life.
Implicit Types (w : world) (n b this : nat) (ev : event).

Lemma listeners_of_type_registered w b be this :
  document w !! b = Some be ->
  listeners_of_type "click" b (registered b this w)
  = listeners_of_type "click" b w
    ++ [("click", handleUploadButtonBlick_bound this)].
Proof.
  intros Hb. unfold listeners_of_type.
  rewrite (listeners_of_registered w b be this Hb), filter_app.
  reflexivity.
Qed.

(** X4. Every successful construction adds one POST to what a click on
    the button makes: if a click made [k] requests before the
    construction, a click after it makes [k + 1]. *)
Theorem construction_adds_one_post_per_click w0 this w1 b be ev :
  find_element "#upload-url-btn" (document w0) = Some (b, be) ->
  new_UploadURL w0 = (Normal this, w1) ->
  ev_type ev = "click" ->
  exists k,
    length (requests (dispatchEvent b ev w0)) = length (requests w0) + k /\
    length (requests (dispatchEvent b ev w1)) = length (requests w1) + S k.
Proof.
  intros Hb Hnew Hty.
  destruct (new_success_inv w0 this w1 Hnew)
    as (b' & be' & t & te & Hb' & _ & -> & ->).
  rewrite Hb in Hb'. injection Hb' as <- <-.
  apply find_element_lookup in Hb as [Hb _].
  exists (length (listeners_of_type "click" b w0)).
  rewrite !dispatchEvent_run, Hty.
  cbn [requests set_promises set_requests].
  rewrite !length_app, !length_map. split; [reflexivity|].
  change (listeners_of_type "click" b
            (set_objects
               (objects w0 ++ [Build_UploadURL (VNode b) (el_value te)])
               (set_value_reads (value_reads w0 ++ [t])
                  (registered b (length (objects w0)) w0))))
    with (listeners_of_type "click" b
            (registered b (length (objects w0)) w0)).
  rewrite (listeners_of_type_registered w0 b be _ Hb), length_app.
  cbn. lia.
Qed.

Lemma dispatchEvents_single b this evs w :
  listeners_of_type "click" b w
    = [("click", handleUploadButtonBlick_bound this)] ->
  Forall (fun ev => ev_type ev = "click") evs ->
  dispatchEvents b evs w
  = set_promises
      (promises w ++ replicate (length evs) (Promise Pending []))
      (set_requests
         (requests w ++ replicate (length evs) (click_request this w)) w).
Proof.
  unfold dispatchEvents. revert w.
  induction evs as [|ev evs IH]; intros w Hl Hevs.
  - symmetry. apply world_unchanged.
  - apply Forall_cons in Hevs as [Hty Hevs].
    cbn [fold_left]. rewrite dispatchEvent_run, Hty, Hl.
    cbn [length replicate List.map snd callback_this].
    rewrite IH; [|exact Hl|exact Hevs].
    unfold set_promises, set_requests. cbn.
    rewrite <- !app_assoc. reflexivity.
Qed.

(** X5. Nothing debounces or deduplicates the clicks.  On a page whose
    button had no click listener before the construction, any series of
    clicks on the button issues one request per click, all of them the
    same request: its token is the value the field had at construction
    time and its URL is on the page's host. The clicks leave the
    document and the objects as they were. *)
Theorem clicks_repeat_the_request w0 this w1 b be evs :
  find_element "#upload-url-btn" (document w0) = Some (b, be) ->
  listeners_of_type "click" b w0 = [] ->
  new_UploadURL w0 = (Normal this, w1) ->
  Forall (fun ev => ev_type ev = "click") evs ->
  exists r,
    requests (dispatchEvents b evs w1)
      = requests w1 ++ replicate (length evs) r /\
    header "X-CSRFToken" r = field_value "#upload_url_csrf_token" w0 /\
    req_url r
      = "http://" +:+ loc_host (window_location w0) +:+ "/api/v1/upload_url" /\
    document (dispatchEvents b evs w1) = document w1 /\
    objects (dispatchEvents b evs w1) = objects w1.
Proof.
  intros Hb Hnone Hnew Hevs.
  destruct (constructed_token w0 this w1 w1 Hnew (rtc_refl _ _))
    as (tok & Hf & Ht).
  destruct (new_success_inv w0 this w1 Hnew)
    as (b' & be' & t & te & Hb' & _ & -> & ->).
  rewrite Hb in Hb'. injection Hb' as <- <-.
  apply find_element_lookup in Hb as [Hb _].
  exists (click_request (length (objects w0))
            (set_objects
               (objects w0 ++ [Build_UploadURL (VNode b) (el_value te)])
               (set_value_reads (value_reads w0 ++ [t])
                  (registered b (length (objects w0)) w0)))).
  rewrite (dispatchEvents_single b (length (objects w0)) evs).
  - split; [reflexivity|].
    split; [rewrite header_token, Ht, Hf; reflexivity|].
    split; [reflexivity|]. split; reflexivity.
  - change (listeners_of_type "click" b (registered b (length (objects w0)) w0)
            = [("click", handleUploadButtonBlick_bound (length (objects w0)))]).
    rewrite (listeners_of_type_registered w0 b be _ Hb), Hnone.
    reflexivity.
  - exact Hevs.
Qed.

(** X6. A construction that fails for want of the token field leaves a
    live listener behind: the constructor throws, and a later click on
    the button still posts; the last request of that click comes from
    the half-built object and carries an [undefined] token. *)
Theorem failed_construction_still_posts w b be ev :
  find_element "#upload-url-btn" (document w) = Some (b, be) ->
  find_element "#upload_url_csrf_token" (document w) = None ->
  ev_type ev = "click" ->
  exists e w' r,
    new_UploadURL w = (Throw e, w') /\
    last (requests (dispatchEvent b ev w')) = Some r /\
    req_method r = "POST" /\
    header "X-CSRFToken" r = Some VUndefined.
Proof.
  intros Hb Ht Hty.
  pose proof (find_element_lookup _ _ _ _ Hb) as [Hlb _].
  exists (TypeError "value"), (registered b (length (objects w)) w).
  exists (click_request (length (objects w))
            (registered b (length (objects w)) w)).
  split; [apply (new_no_field w b be Hb Ht)|].
  split.
  - rewrite dispatchEvent_run, Hty.
    rewrite (listeners_of_type_registered w b be _ Hlb).
    cbn [requests set_promises set_requests].
    rewrite map_app, app_assoc. cbn [List.map snd callback_this].
    apply last_snoc.
  - split; [reflexivity|].
    rewrite header_token. cbn [objects registered set_document set_objects].
    rewrite lookup_app_r by lia. rewrite Nat.sub_diag. reflexivity.
Qed.
End Life.

(** ** What the constructor and the page keep *)

Section Invariants.
Implicit Types (w : world) (n b this : nat) (ev : event).

Lemma registered_elements w b this n :
  length (document (registered b this w)) = length (document w) /\
  el_id <$> document (registered b this w) !! n = el_id <$> document w !! n /\
  el_value <$> document (registered b this w) !! n
    = el_value <$> document w !! n.
Proof.
  unfold registered. cbn [document set_document set_objects].
  split; [apply length_alter|].
  rewrite list_lookup_alter.
  destruct (decide (b = n)) as [->|_]; [|split; reflexivity].
  destruct (document w !! n); split; reflexivity.
Qed.

(** X1. The constructor touches nothing but the heap and the listeners:
    whether it succeeds or throws, it issues no request, creates no
    promise, leaves the location alone, and the document keeps its
    elements, their ids and their values. *)
Theorem constructor_frame w :
  let w' := snd (new_UploadURL w) in
  requests w' = requests w /\
  promises w' = promises w /\
  window_location w' = window_location w /\
  length (document w') = length (document w) /\
  forall n,
    el_id <$> document w' !! n = el_id <$> document w !! n /\
    el_value <$> document w' !! n = el_value <$> document w !! n.
Proof.
  destruct (find_element "#upload-url-btn" (document w))
    as [[b be]|] eqn:Hb;
    [destruct (find_element "#upload_url_csrf_token" (document w))
       as [[t te]|] eqn:Ht|].
  - rewrite (new_both w b be t te Hb Ht). cbn.
    split; [reflexivity|]. split; [reflexivity|]. split; [reflexivity|].
    split; [apply (registered_elements w b (length (objects w)) 0)|].
    intros n. apply (registered_elements w b (length (objects w)) n).
  - rewrite (new_no_field w b be Hb Ht). cbn.
    split; [reflexivity|]. split; [reflexivity|]. split; [reflexivity|].
    split; [apply (registered_elements w b (length (objects w)) 0)|].
    intros n. apply (registered_elements w b (length (objects w)) n).
  - rewrite (new_no_button w Hb). cbn.
    split; [reflexivity|]. split; [reflexivity|]. split; [reflexivity|].
    split; [reflexivity|]. intros n. split; reflexivity.
Qed.

(** X2. A constructed object is new and then never written again: its
    location was not in the heap before, and at every later point of
    the page's life its [uploadButton] is the first element with the id
    [upload-url-btn] at construction time and its [csrfToken] the value
    the token field had then. *)
Theorem constructed_fields_are_final w0 this w1 w :
  new_UploadURL w0 = (Normal this, w1) ->
  rtc page_step w1 w ->
  exists b tok,
    objects w0 !! this = None /\
    fst <$> find_element "#upload-url-btn" (document w0) = Some b /\
    field_value "#upload_url_csrf_token" w0 = Some tok /\
    objects w !! this = Some (Build_UploadURL (VNode b) tok).
Proof.
  intros Hnew Hreach.
  destruct (new_success_inv w0 this w1 Hnew)
    as (b & be & t & te & Hb & Ht & -> & ->).
  exists b, (el_value te).
  split; [apply lookup_ge_None; lia|].
  split; [rewrite Hb; reflexivity|].
  split; [unfold field_value; rewrite Ht; reflexivity|].
  apply (reachable_lookup _ w _ _ Hreach).
  cbn. rewrite lookup_app_r by lia. rewrite Nat.sub_diag. reflexivity.
Qed.

Lemma new_promises w : promises (snd (new_UploadURL w)) = promises w.
Proof.
  destruct (find_element "#upload-url-btn" (document w))
    as [[b be]|] eqn:Hb;
    [destruct (find_element "#upload_url_csrf_token" (document w))
       as [[t te]|] eqn:Ht|].
  - rewrite (new_both w b be t te Hb Ht). reflexivity.
  - rewrite (new_no_field w b be Hb Ht). reflexivity.
  - rewrite (new_no_button w Hb). reflexivity.
Qed.

Lemma settle_no_reactions p o w :
  no_reactions w ->
  settle p o w = w \/
  settle p o w = set_promises (alter (settle_promise o) p (promises w)) w.
Proof.
  intros Hinv. unfold settle.
  destruct (promises w !! p) as [[st rs]|] eqn:Hp; [|left; reflexivity].
  pose proof (Forall_lookup_1 _ _ _ _ Hinv Hp) as Hrs. cbn in Hrs. subst rs.
  destruct st; [right|left]; reflexivity.
Qed.

Lemma page_step_no_reactions w w' :
  page_step w w' -> no_reactions w -> no_reactions w'.
Proof.
  intros [d w0|loc w0|n ev w0|p o w0|w0] Hinv; unfold no_reactions in *.
  - exact Hinv.
  - exact Hinv.
  - rewrite dispatchEvent_run. cbn [promises set_promises].
    apply Forall_app. split; [exact Hinv|].
    apply Forall_replicate. reflexivity.
  - destruct (settle_no_reactions p o w0 Hinv) as [-> | ->]; [exact Hinv|].
    cbn [promises set_promises]. apply Forall_alter; [exact Hinv|].
    intros x _ Hx. exact Hx.
  - rewrite new_promises. exact Hinv.
Qed.

(** X7. The program never attaches a reaction to a promise, so an answer
    from the network never does anything: from a page with no reaction,
    at whatever later point of its life, no promise has a reaction, and
    the answer to any request, of any outcome, issues no request and
    changes neither the document nor the objects. *)
Theorem answers_are_never_handled w0 w p o :
  no_reactions w0 ->
  rtc page_step w0 w ->
  no_reactions w /\
  requests (settle p o w) = requests w /\
  document (settle p o w) = document w /\
  objects (settle p o w) = objects w.
Proof.
  intros Hinv Hreach.
  assert (Hw : no_reactions w).
  { induction Hreach as [|x y z Hxy _ IH]; [exact Hinv|].
    apply IH. apply (page_step_no_reactions x y Hxy Hinv). }
  split; [exact Hw|].
  destruct (settle_no_reactions p o w Hw) as [-> | ->];
    repeat split; reflexivity.
Qed.
End Invariants.

Section Bound.
Implicit Types (w : world) (n b this : nat) (ev : event).

Lemma run_reactions_document (o : outcome) rs w :
  document (fold_left (fun w cb => snd (call cb (VOutcome o) w)) rs w)
  = document w.
Proof.
  revert w. induction rs as [|cb rs IH]; intros w; [reflexivity|].
  cbn [fold_left]. rewrite IH. apply call_document.
Qed.

Lemma settle_document p o w : document (settle p o w) = document w.
Proof.
  unfold settle. destruct (promises w !! p) as [[[|] rs]|]; try reflexivity.
  rewrite run_reactions_document. reflexivity.
Qed.

(** The invariant looks at the document and the heap only, and a longer
    heap keeps it. *)
Lemma listeners_bound_ext w w' :
  document w' = document w ->
  objects w `prefix_of` objects w' ->
  listeners_bound w -> listeners_bound w'.
Proof.
  intros Hd Ho Hinv n e ty cb Hn Hin. rewrite Hd in Hn.
  destruct (Hinv n e ty cb Hn Hin) as (-> & o & Hlo & Hu).
  split; [reflexivity|]. exists o. split; [|exact Hu].
  eapply prefix_lookup_Some; eassumption.
Qed.

Lemma listeners_bound_registered w w' b be (v : jsval) :
  document w !! b = Some be ->
  document w' = document (registered b (length (objects w)) w) ->
  objects w' = objects w ++ [Build_UploadURL (VNode b) v] ->
  listeners_bound w -> listeners_bound w'.
Proof.
  intros Hb Hd Ho Hinv n e ty cb Hn Hin.
  rewrite Hd in Hn. unfold registered in Hn.
  cbn [document set_document set_objects] in Hn.
  rewrite Ho.
  assert (Hold : forall e0, document w !! n = Some e0 ->
                   (ty, cb) ∈ el_listeners e0 ->
                   ty = "click" /\
                   exists o,
                     (objects w ++ [Build_UploadURL (VNode b) v])
                       !! callback_this cb = Some o /\
                     uploadButton o = VNode n).
  { intros e0 Hn0 Hin0.
    destruct (Hinv n e0 ty cb Hn0 Hin0) as (-> & o & Hlo & Hu).
    split; [reflexivity|]. exists o. split; [|exact Hu].
    apply lookup_app_l_Some. exact Hlo. }
  rewrite list_lookup_alter in Hn.
  destruct (decide (b = n)) as [<-|_]; [|apply (Hold e Hn Hin)].
  rewrite Hb in Hn. injection Hn as <-.
  cbn [add_listener el_listeners] in Hin.
  apply elem_of_app in Hin as [Hin|Hin%list_elem_of_singleton].
  - apply (Hold be Hb Hin).
  - injection Hin as -> ->. split; [reflexivity|].
    exists (Build_UploadURL (VNode b) v). split; [|reflexivity].
    cbn [callback_this]. rewrite lookup_app_r by lia.
    rewrite Nat.sub_diag. reflexivity.
Qed.

Lemma new_listeners_bound w :
  listeners_bound w -> listeners_bound (snd (new_UploadURL w)).
Proof.
  intros Hinv.
  destruct (find_element "#upload-url-btn" (document w))
    as [[b be]|] eqn:Hb;
    [destruct (find_element "#upload_url_csrf_token" (document w))
       as [[t te]|] eqn:Ht|].
  - rewrite (new_both w b be t te Hb Ht).
    apply find_element_lookup in Hb as [Hb _].
    apply (listeners_bound_registered w _ b be (el_value te) Hb);
      [reflexivity|reflexivity|exact Hinv].
  - rewrite (new_no_field w b be Hb Ht).
    apply find_element_lookup in Hb as [Hb _].
    apply (listeners_bound_registered w _ b be VUndefined Hb);
      [reflexivity|reflexivity|exact Hinv].
  - rewrite (new_no_button w Hb).
    apply (listeners_bound_ext w); [reflexivity| |exact Hinv].
    apply prefix_app_r. reflexivity.
Qed.

Lemma set_value_listeners_bound n (v : jsval) w :
  listeners_bound w -> listeners_bound (set_value n v w).
Proof.
  intros Hinv m e ty cb Hm Hin.
  unfold set_value in Hm. cbn [document set_document] in Hm.
  change (objects (set_value n v w)) with (objects w).
  rewrite list_lookup_alter in Hm.
  destruct (decide (n = m)) as [<-|_]; [|apply (Hinv m e ty cb Hm Hin)].
  destruct (document w !! n) as [e0|] eqn:Hn; [|discriminate].
  injection Hm as <-. apply (Hinv n e0 ty cb Hn Hin).
Qed.

Lemma script_step_listeners_bound w w' :
  script_step w w' -> listeners_bound w -> listeners_bound w'.
Proof.
  intros [n v w0|loc w0|n ev w0|p o w0|w0] Hinv.
  - apply set_value_listeners_bound, Hinv.
  - exact Hinv.
  - apply (listeners_bound_ext w0); [|rewrite dispatchEvent_objects|exact Hinv];
      [rewrite dispatchEvent_run|]; reflexivity.
  - apply (listeners_bound_ext w0); [apply settle_document| |exact Hinv].
    rewrite settle_objects. reflexivity.
  - apply new_listeners_bound, Hinv.
Qed.

(** X8. On a page where this program is the only script, every listener
    is, at any point of the page's life, a click listener bound to an
    object of the heap, and that object's [uploadButton] is the element
    the listener is registered on: the handler never runs on an object
    that was not constructed, and never on another element's object. *)
Theorem listeners_stay_bound w0 w :
  listeners_bound w0 ->
  rtc script_step w0 w ->
  listeners_bound w.
Proof.
  intros Hinv Hreach.
  induction Hreach as [|x y z Hxy _ IH]; [exact Hinv|].
  apply IH. apply (script_step_listeners_bound x y Hxy Hinv).
Qed.

(** A page on which no element has a listener is a place to start. *)
Lemma listeners_bound_initial w :
  Forall (fun e => el_listeners e = []) (document w) -> listeners_bound w.
Proof.
  intros Hall n e ty cb Hn Hin.
  pose proof (Forall_lookup_1 _ _ _ _ Hall Hn) as He. cbn in He.
  rewrite He in Hin. apply elem_of_nil in Hin. contradiction.
Qed.
End Bound.

(** ** Errors and addresses *)

(** X9. When the constructor throws, the error tells which element is
    missing: [addEventListener] of [null] for the button, [value] of
    [null] for the token field when the button is there.  In both cases
    no element value has been read, and the heap is left with one more
    object, half-built, whose [csrfToken] is [undefined]. *)
Theorem construction_error_names_the_missing_element
  (w w' : world) (e : exn) :
  new_UploadURL w = (Throw e, w') ->
  (e = TypeError "addEventListener" /\
   find_element "#upload-url-btn" (document w) = None
   \/
   e = TypeError "value" /\
   is_Some (find_element "#upload-url-btn" (document w)) /\
   find_element "#upload_url_csrf_token" (document w) = None) /\
  value_reads w' = value_reads w /\
  exists o, objects w' = objects w ++ [o] /\ csrfToken o = VUndefined.
Proof.
  intros Hnew.
  destruct (find_element "#upload-url-btn" (document w))
    as [[b be]|] eqn:Hb;
    [destruct (find_element "#upload_url_csrf_token" (document w))
       as [[t te]|] eqn:Ht|].
  - rewrite (new_both w b be t te Hb Ht) in Hnew. discriminate.
  - rewrite (new_no_field w b be Hb Ht) in Hnew. injection Hnew as <- <-.
    split; [right; split; [reflexivity|split; [eexists|]; reflexivity]|].
    split; [reflexivity|]. eexists. split; reflexivity.
  - rewrite (new_no_button w Hb) in Hnew. injection Hnew as <- <-.
    split; [left; split; reflexivity|].
    split; [reflexivity|]. eexists. split; reflexivity.
Qed.

(** X10. The request of a click is addressed to the page's own host:
    when the host of the location is a host name, the URL splits into
    the scheme [http], that host as authority, and the path of the
    upload endpoint. *)
Theorem request_goes_to_the_page_host (this : nat) (event : jsval)
  (w : world) :
  valid_host (loc_host (window_location w)) = true ->
  exists r w',
    handleUploadButtonBlick this event w = (Normal VUndefined, w') /\
    requests w' = requests w ++ [r] /\
    parse_url (req_url r)
    = Some (Url "http" (loc_host (window_location w)) "/api/v1/upload_url").
Proof.
  intros Hhost. apply andb_prop in Hhost as [_ Hhost].
  exists (click_request this w). eexists.
  split; [apply handler_run|]. split; [reflexivity|].
  apply (parse_url_of_host _ Hhost).
Qed.

(** ** The properties above, on the pages *)

Lemma construction_adds_one_post_per_click_witness :
  let be := Element "upload-url-btn" VUndefined
              [("click", handleUploadButtonBlick_bound 0)] in
  let w1 := snd (new_UploadURL page_after_construction) in
  find_element "#upload-url-btn" (document page_after_construction)
    = Some (1, be) /\
  new_UploadURL page_after_construction = (Normal 1, w1) /\
  ev_type click_on_button = "click" /\
  exists k,
    length (requests (dispatchEvent 1 click_on_button
                        page_after_construction))
      = length (requests page_after_construction) + k /\
    length (requests (dispatchEvent 1 click_on_button w1))
      = length (requests w1) + S k.
Proof.
  split; [reflexivity|]. split; [reflexivity|]. split; [reflexivity|].
  apply (construction_adds_one_post_per_click page_after_construction 1
           (snd (new_UploadURL page_after_construction)) 1
           (Element "upload-url-btn" VUndefined
              [("click", handleUploadButtonBlick_bound 0)])
           click_on_button); reflexivity.
Defined.

Lemma clicks_repeat_the_request_witness :
  let be := Element "upload-url-btn" VUndefined [] in
  let evs := [click_on_button; another_click; click_on_button] in
  find_element "#upload-url-btn" (document upload_page) = Some (1, be) /\
  listeners_of_type "click" 1 upload_page = [] /\
  new_UploadURL upload_page = (Normal 0, page_after_construction) /\
  Forall (fun ev => ev_type ev = "click") evs /\
  exists r,
    requests (dispatchEvents 1 evs page_after_construction)
      = requests page_after_construction ++ replicate (length evs) r /\
    header "X-CSRFToken" r
      = field_value "#upload_url_csrf_token" upload_page /\
    req_url r
      = "http://" +:+ loc_host (window_location upload_page)
        +:+ "/api/v1/upload_url" /\
    document (dispatchEvents 1 evs page_after_construction)
      = document page_after_construction /\
    objects (dispatchEvents 1 evs page_after_construction)
      = objects page_after_construction.
Proof.
  intros be evs.
  assert (Hevs : Forall (fun ev => ev_type ev = "click") evs).
  { repeat constructor. }
  split; [reflexivity|]. split; [reflexivity|]. split; [reflexivity|].
  split; [exact Hevs|].
  apply (clicks_repeat_the_request upload_page 0 page_after_construction
           1 be evs); [reflexivity|reflexivity|reflexivity|exact Hevs].
Defined.

Lemma failed_construction_still_posts_witness :
  let be := Element "upload-url-btn" VUndefined [] in
  find_element "#upload-url-btn" (document page_without_field)
    = Some (1, be) /\
  find_element "#upload_url_csrf_token" (document page_without_field)
    = None /\
  ev_type click_on_button = "click" /\
  exists e w' r,
    new_UploadURL page_without_field = (Throw e, w') /\
    last (requests (dispatchEvent 1 click_on_button w')) = Some r /\
    req_method r = "POST" /\
    header "X-CSRFToken" r = Some VUndefined.
Proof.
  split; [reflexivity|]. split; [reflexivity|]. split; [reflexivity|].
  apply (failed_construction_still_posts page_without_field 1
           (Element "upload-url-btn" VUndefined []) click_on_button);
    reflexivity.
Defined.

Lemma constructed_fields_are_final_witness :
  let w := dispatchEvent 1 click_on_button
             (set_value 2 (VStr "token-2") page_after_construction) in
  new_UploadURL upload_page = (Normal 0, page_after_construction) /\
  rtc page_step page_after_construction w /\
  exists b tok,
    objects upload_page !! 0 = None /\
    fst <$> find_element "#upload-url-btn" (document upload_page)
      = Some b /\
    field_value "#upload_url_csrf_token" upload_page = Some tok /\
    objects w !! 0 = Some (Build_UploadURL (VNode b) tok).
Proof.
  intros w.
  assert (H : rtc page_step page_after_construction w).
  { eapply rtc_l; [apply step_document|]. apply rtc_once, step_event. }
  split; [reflexivity|]. split; [exact H|].
  apply (constructed_fields_are_final upload_page 0
           page_after_construction w); [reflexivity|exact H].
Defined.

Lemma answers_are_never_handled_witness :
  let w := dispatchEvent 1 click_on_button page_after_construction in
  no_reactions upload_page /\
  rtc page_step upload_page w /\
  no_reactions w /\
  requests (settle 0 (Fulfilled 500) w) = requests w /\
  document (settle 0 (Fulfilled 500) w) = document w /\
  objects (settle 0 (Fulfilled 500) w) = objects w.
Proof.
  intros w.
  assert (H0 : no_reactions upload_page) by constructor.
  assert (H : rtc page_step upload_page w).
  { eapply rtc_l; [apply step_new|]. apply rtc_once, step_event. }
  split; [exact H0|]. split; [exact H|].
  apply (answers_are_never_handled upload_page w 0 (Fulfilled 500) H0 H).
Defined.

Lemma listeners_stay_bound_witness :
  let w := dispatchEvent 1 click_on_button
             (snd (new_UploadURL page_after_construction)) in
  listeners_bound upload_page /\
  rtc script_step upload_page w /\
  listeners_bound w.
Proof.
  intros w.
  assert (H0 : listeners_bound upload_page).
  { apply listeners_bound_initial. repeat constructor. }
  assert (H : rtc script_step upload_page w).
  { eapply rtc_l; [apply script_new|].
    eapply rtc_l; [apply script_new|]. apply rtc_once, script_event. }
  split; [exact H0|]. split; [exact H|].
  apply (listeners_stay_bound upload_page w H0 H).
Defined.

Lemma construction_error_names_the_missing_element_witness :
  let w' := snd (new_UploadURL page_without_field) in
  new_UploadURL page_without_field = (Throw (TypeError "value"), w') /\
  (TypeError "value" = TypeError "addEventListener" /\
   find_element "#upload-url-btn" (document page_without_field) = None
   \/
   TypeError "value" = TypeError "value" /\
   is_Some (find_element "#upload-url-btn" (document page_without_field)) /\
   find_element "#upload_url_csrf_token" (document page_without_field)
     = None) /\
  value_reads w' = value_reads page_without_field /\
  exists o, objects w' = objects page_without_field ++ [o] /\
            csrfToken o = VUndefined.
Proof.
  split; [reflexivity|].
  apply (construction_error_names_the_missing_element page_without_field
           (snd (new_UploadURL page_without_field)) (TypeError "value")).
  reflexivity.
Defined.

Lemma request_goes_to_the_page_host_witness :
  valid_host (loc_host (window_location page_after_construction)) = true /\
  exists r w',
    handleUploadButtonBlick 0 (VEvent click_on_button)
      page_after_construction = (Normal VUndefined, w') /\
    requests w' = requests page_after_construction ++ [r] /\
    parse_url (req_url r)
    = Some (Url "http" (loc_host (window_location page_after_construction))
              "/api/v1/upload_url").
Proof.
  split; [reflexivity|].
  apply (request_goes_to_the_page_host 0 (VEvent click_on_button)
           page_after_construction).
  reflexivity.
Defined.
